(** * ppSearch: operand decomposition and adjacent-line pattern search

  A shallow embedding of [flutter/ppSearch.py].  Python strings are lists
  of characters, Python integers are [Z], and the few effects of the
  script (printing, calls into the regular-expression engine, exceptions)
  are threaded through a small logging monad. *)

From Stdlib Require Import List ZArith Lia Bool Ascii String.
From Stdlib Require Import DecimalString.
Import ListNotations.

Local Open Scope Z_scope.

(** ** Python strings and the primitives the script uses *)

Module Py.

Definition str := list ascii.

(** A literal of the source text. *)
Definition lit (s : string) : str := list_ascii_of_string s.

Definition len {A} (s : list A) : Z := Z.of_nat (List.length s).

(** [a == b] on strings. *)
Fixpoint str_eqb (a b : str) : bool :=
  match a, b with
  | [], [] => true
  | x :: a', y :: b' => Ascii.eqb x y && str_eqb a' b'
  | _, _ => false
  end.

(** Bound normalisation of a slice [s[lo:hi]] (step 1): a negative bound
    counts from the end, and every bound is clamped into [0..len s]. *)
Definition clamp (n i : Z) : Z :=
  if i <? 0 then Z.max 0 (n + i) else Z.min i n.

Definition slice (s : str) (lo hi : option Z) : str :=
  let n := len s in
  let a := match lo with Some i => clamp n i | None => 0 end in
  let b := match hi with Some j => clamp n j | None => n end in
  firstn (Z.to_nat (b - a)) (skipn (Z.to_nat a) s).

Definition mem_char (c : ascii) (chars : str) : bool :=
  existsb (Ascii.eqb c) chars.

(** [s.lstrip(chars)]: [chars] is a SET of characters; every leading
    character of [s] that belongs to it is removed. *)
Fixpoint lstrip (s chars : str) : str :=
  match s with
  | [] => []
  | c :: s' => if mem_char c chars then lstrip s' chars else s
  end.

(** [s.startswith(prefix)]. *)
Fixpoint startswith (s prefix : str) {struct prefix} : bool :=
  match prefix, s with
  | [], _ => true
  | p :: prefix', c :: s' => Ascii.eqb c p && startswith s' prefix'
  | _ :: _, [] => false
  end.

(** [s.removeprefix(prefix)]: the prefix as a whole, once, or nothing.
    The script does not call it; it is what the specification describes. *)
Definition removeprefix (s prefix : str) : str :=
  if startswith s prefix then skipn (List.length prefix) s else s.

(** [x in set_of_strings]. *)
Definition mem_str (x : str) (xs : list str) : bool :=
  existsb (str_eqb x) xs.

End Py.

Import Py.

(** ** Exceptions, outcomes and the logging monad *)

Inductive exn : Type :=
| IndexError
| ImportError
| CalledProcessError (returncode : Z)
| AssertionError (package_name : str) (returncode : Z)
| OtherError (what : str).

Inductive outcome (A : Type) : Type :=
| Return (a : A)
| Raise (e : exn).
Arguments Return {A} a.
Arguments Raise {A} e.

(** A computation yields an outcome and the events it emitted on the way. *)
Definition M (E A : Type) : Type := (outcome A * list E)%type.

Definition ret {E A} (a : A) : M E A := (Return a, []).
Definition raise {E A} (e : exn) : M E A := (Raise e, []).
Definition emit {E} (ev : E) : M E unit := (Return tt, [ev]).

Definition bind {E A B} (m : M E A) (k : A -> M E B) : M E B :=
match m with
| (Return a, log) => let '(r, log') := k a in (r, log ++ log')
| (Raise e, log) => (Raise e, log)
end.

Notation "x <- m ;; k" := (bind m (fun x => k))
(at level 61, m at next level, right associativity).
Notation "m ;;; k" := (bind m (fun _ => k))
(at level 61, right associativity).

(** ** The Operand Decomposer (lines 127-144 of [main]) *)

Module Decomposer.

Definition values : list str :=
  [lit "a"; lit "b"; lit "c"; lit "d"; lit "e"; lit "f"].

(** Line 127. *)
Definition shift_prefix (hex_value : str) : str :=
  slice hex_value (Some 0) (Some (-3)).

(** Line 131. *)
Definition stripped (first_target : str) : str :=
  lstrip first_target (lit "0x").

(** Line 132. *)
Definition drop_leading_zero (check_first : str) : str :=
  if startswith check_first (lit "0")
  then slice check_first (Some 1) None
  else check_first.

(** Lines 134-135. *)
Definition collapse (first_target check_first : str) : str :=
  if (len check_first =? 1) && negb (mem_str check_first values)
  then check_first
  else first_target.

Definition first_target (hex_value : str) : str :=
  let first_target := shift_prefix hex_value in
  let check_first := stripped first_target in
  let check_first := drop_leading_zero check_first in
  collapse first_target check_first.

(** Lines 137-142. *)
Definition second_target (hex_value : str) : str :=
  if str_eqb (slice hex_value (Some (-3)) (Some (-1))) (lit "00")
  then slice hex_value (Some (-1)) None
  else if str_eqb (slice hex_value (Some (-3)) (Some (-2))) (lit "0")
  then lit "0x" ++ slice hex_value (Some (-2)) None
  else lit "0x" ++ slice hex_value (Some (-3)) None.

(** [print(a, b)] writes the two strings separated by one space. *)
Definition print2 (a b : str) : M str unit :=
  emit (a ++ lit " " ++ b).

(** [main] from the assignment of [hex_value] up to the two prints; the
    events are the lines written to standard output. *)
Definition operands (hex_value : str) : M str (str * str) :=
  let first_target := first_target hex_value in
  let second_target := second_target hex_value in
  print2 (lit "The First Target is:") first_target ;;;
  print2 (lit "The Second Target is:") second_target ;;;
  ret (first_target, second_target).

(** The decomposer with line 132 deleted. *)
Definition first_target_no_zero_drop (hex_value : str) : str :=
  let first_target := shift_prefix hex_value in
  let check_first := stripped first_target in
  collapse first_target check_first.

(** The shift operand as the specification words it: one leading "0x"
    removed as a prefix, then at most one further leading "0", and a
    collapse when one decimal digit is left. *)
Definition is_decimal_digit (c : ascii) : bool :=
  mem_char c (lit "0123456789").

Definition first_target_spec (hex_value : str) : str :=
  let shift := shift_prefix hex_value in
  let rest := removeprefix shift (lit "0x") in
  let rest := removeprefix rest (lit "0") in
  match rest with
  | [c] => if is_decimal_digit c then [c] else shift
  | _ => shift
  end.

Definition is_hex_digit (c : ascii) : bool :=
  mem_char c (lit "0123456789abcdef").

(** The inputs the specification calls invalid: fewer than three
    characters after the "0x" prefix, or a character that is not a hex digit
    among the (at most three) trailing positions the offset rule inspects. *)
Definition too_short (hex_value : str) : bool :=
  len (removeprefix hex_value (lit "0x")) <? 3.

Definition inspected (hex_value : str) : str :=
  slice hex_value (Some (-3)) None.

Definition malformed (hex_value : str) : bool :=
  too_short hex_value || negb (forallb is_hex_digit (inspected hex_value)).

End Decomposer.

Import Decomposer.

(** ** The Pattern Matcher ([search_patterns], lines 90-109) *)

(** [l[i]]: a negative index counts from the end; out of range raises. *)
Definition getitem {E A} (l : list A) (i : Z) : M E A :=
  let n := len l in
  let j := if i <? 0 then i + n else i in
  if (0 <=? j) && (j <? n)
  then match nth_error l (Z.to_nat j) with
       | Some a => ret a
       | None => raise IndexError
       end
  else raise IndexError.

(** [range(n)]: empty when [n <= 0]. *)
Definition range (n : Z) : list Z :=
  map Z.of_nat (seq 0 (Z.to_nat n)).

(** [for i in items: s = body(i, s)], stopping at the first exception. *)
Fixpoint for_in {E I S} (items : list I) (body : I -> S -> M E S) (s : S)
  : M E S :=
  match items with
  | [] => ret s
  | i :: rest => s' <- body i s ;; for_in rest body s'
  end.

Section PatternMatcher.

(** Compiled regular expressions are opaque: all the script asks of one is
    whether [pattern.search(line)] is truthy. *)
Variable pattern : Type.
Variable search : pattern -> str -> bool.

(** One call into the regular-expression engine, logged. *)
Definition re_search (p : pattern) (line : str) : M (pattern * str) bool :=
  emit (p, line) ;;; ret (search p line).

(** The body of the loop, lines 106-107; [and] evaluates its right operand,
    and so indexes [output[i + 1]], only when the left one is truthy. *)
Definition search_body (output : list str) (pattern1 pattern2 : pattern)
  (i : Z) (matches : list (str * str)) : M (pattern * str) (list (str * str)) :=
  a <- getitem output i ;;
  m1 <- re_search pattern1 a ;;
  if m1 then
    b <- getitem output (i + 1) ;;
    m2 <- re_search pattern2 b ;;
    if m2 then
      x <- getitem output i ;;
      y <- getitem output (i + 1) ;;
      ret (matches ++ [(x, y)])
    else ret matches
  else ret matches.

Definition search_patterns (output : list str) (pattern1 pattern2 : pattern)
  : M (pattern * str) (list (str * str)) :=
  for_in (range (len output - 1)) (search_body output pattern1 pattern2) [].

(** What the specification expects: the adjacent pairs of the sequence, in
    order, the test applied to each, and the engine calls that test makes. *)
Definition adjacent (output : list str) : list (str * str) :=
  combine output (tl output).

Definition both_match (pattern1 pattern2 : pattern) (ab : str * str) : bool :=
  search pattern1 (fst ab) && search pattern2 (snd ab).

(** The pairs (line i, line i+1) for i = 0 .. L-2, by index. *)
Definition indexed_pairs (output : list str) : list (str * str) :=
  map (fun i => (nth i output [], nth (S i) output []))
    (seq 0 (List.length output - 1)).

Definition calls_of (pattern1 pattern2 : pattern) (ab : str * str)
  : list (pattern * str) :=
  (pattern1, fst ab) :: (if search pattern1 (fst ab) then [(pattern2, snd ab)] else []).

End PatternMatcher.

(** ** [import_library] (lines 51-71) *)

Module Importer.

Record CompletedProcess : Type := { returncode : Z }.

(** How a child process ends: it exits with a code, or it never starts. *)
Inductive process : Type :=
| Exited (code : Z)
| NotStarted (e : exn).

(** [subprocess.run(args, check=check)]: with [check] true, a non-zero
    exit code raises [CalledProcessError] instead of being returned. *)
Definition subprocess_run (p : process) (check : bool)
  : outcome CompletedProcess :=
  match p with
  | NotStarted e => Raise e
  | Exited code =>
      if check && negb (code =? 0)
      then Raise (CalledProcessError code)
      else Return {| returncode := code |}
  end.

(** Ghost events marking the points control passes through. *)
Inductive point : Type :=
| PipInvoked (package_name : str)
| ReturncodeTested (code : Z)
| InstallFailureBranch.

Section ImportLibrary.

Variable module : Type.

(** The world outside the script: what importing a library gives before and
    after the installer ran, and how the installer ends for a package. *)
Record world : Type := {
  import_before : str -> outcome module;
  pip_install : str -> process;
  import_after : str -> outcome module
}.

Definition lift {A} (o : outcome A) : M point A := (o, []).

Definition import_library (w : world) (library_name : str)
  (package_name : option str) : M point module :=
  let package_name :=
    match package_name with None => library_name | Some p => p end in
  match import_before w library_name with
  | Return m => ret m
  | Raise ImportError =>
      emit (PipInvoked package_name) ;;;
      completed <- lift (subprocess_run (pip_install w package_name) true) ;;
      emit (ReturncodeTested (returncode completed)) ;;;
      if negb (returncode completed =? 0)
      then emit InstallFailureBranch ;;;
           raise (AssertionError package_name (returncode completed))
      else lift (import_after w library_name)
  | Raise e => raise e
  end.

End ImportLibrary.

End Importer.

(** ** More of Python's [str], as [run_command] and the report use it *)

Module PyText.

(** Truthiness of a string or a list: non-empty. *)
Definition truthy {A} (l : list A) : bool :=
  match l with [] => false | _ :: _ => true end.

(** The characters [str.strip()] removes, among the code points below 256:
    tab, the line breaks, the four separators 28-31, the space, NEL and the
    no-break space. *)
Definition whitespace : str :=
  map ascii_of_nat [9; 10; 11; 12; 13; 28; 29; 30; 31; 32; 133; 160]%nat.

Definition rstrip (s chars : str) : str := rev (lstrip (rev s) chars).

(** [s.strip()]. *)
Definition strip (s : str) : str := rstrip (lstrip s whitespace) whitespace.

(** [s.split(sep)] for a separator of one character, the only way the
    script calls it: every occurrence separates, empty pieces are kept and
    the result always has at least one piece. *)
Fixpoint split (s : str) (sep : ascii) : list str :=
  match s with
  | [] => [[]]
  | c :: s' =>
      if Ascii.eqb c sep then [] :: split s' sep
      else match split s' sep with
           | piece :: rest => (c :: piece) :: rest
           | [] => [[c]]
           end
  end.

(** [sep.join(pieces)]; the script never joins, the round trip with
    [split] is stated with it. *)
Fixpoint join (sep : ascii) (pieces : list str) : str :=
  match pieces with
  | [] => []
  | [p] => p
  | p :: rest => p ++ sep :: join sep rest
  end.

(** The part of [s] before the first [sep]. *)
Fixpoint before (sep : ascii) (s : str) : str :=
  match s with
  | [] => []
  | c :: s' => if Ascii.eqb c sep then [] else c :: before sep s'
  end.

Definition newline : ascii := "010"%char.
Definition space : ascii := " "%char.

(** [str(n)] for an integer, as an f-string formats it. *)
Definition str_of_int (n : Z) : str :=
  lit (NilZero.string_of_int (Z.to_int n)).

End PyText.

Import PyText.

Definition of_outcome {E A} (o : outcome A) : M E A := (o, []).

(** A computation run after the events [log] were emitted. *)
Definition after {E A} (log : list E) (m : M E A) : M E A :=
  (fst m, log ++ snd m).

(** A computation seen from a caller with a wider event type. *)
Definition relog {E F A} (f : E -> F) (m : M E A) : M F A :=
  (fst m, map f (snd m)).

(** ** [run_command] (lines 77-87) *)

(** What the script asks of the disassembler. *)
Inductive r2_event : Type :=
| R2Open (binary : str) (flags : list str)
| R2Cmd (text : str)
| R2Quit.

Section RunCommand.

(** The disassembler is a collaborator with a state of its own: opening a
    binary gives a session or raises; a command gives text or raises and
    moves the session on; quitting may raise. *)
Variable session : Type.
Variable r2_open : str -> list str -> outcome session.
Variable r2_cmd : session -> str -> outcome str * session.
Variable r2_quit : session -> outcome unit.

Definition r2_flags : list str := [lit "-z"; lit "-e"; lit "log.quiet=true"].

(** The text of line 82. *)
Definition query (first_target second_target : str) : str :=
  lit "/ad/ add.*, x27, " ++ first_target ++ lit ", lsl 12; .*, [.*, "
    ++ second_target ++ lit "]".

(** The text of line 85 for an address. *)
Definition seek_pd3 (address : str) : str :=
  lit "s " ++ address ++ lit ";pd3".

(** [r2.cmd(text)]. *)
Definition cmd (r2 : session) (text : str) : M r2_event (str * session) :=
  emit (R2Cmd text) ;;;
  match r2_cmd r2 text with
  | (Return reply, r2') => ret (reply, r2')
  | (Raise e, _) => raise e
  end.

(** Lines 84-85: one hit line of the query. *)
Definition window (line : str) (acc : str * session)
  : M r2_event (str * session) :=
  let '(output, r2) := acc in
  if truthy (strip line) then
    address <- getitem (split line space) 0 ;;
    r <- cmd r2 (seek_pd3 address) ;;
    ret (output ++ fst r, snd r)
  else ret (output, r2).

Definition run_command (binary first_target second_target : str)
  : M r2_event (list str) :=
  emit (R2Open binary r2_flags) ;;;
  r2 <- of_outcome (r2_open binary r2_flags) ;;
  found <- cmd r2 (query first_target second_target) ;;
  acc <- for_in (split (fst found) newline) window ([], snd found) ;;
  emit R2Quit ;;;
  of_outcome (r2_quit (snd acc)) ;;;
  ret (split (fst acc) newline).

(** The replies to the commands [texts], sent one after the other from
    [r2], up to the first that raises; the session reached; the exception,
    if one was raised. *)
Fixpoint replies (r2 : session) (texts : list str)
  : list str * session * option exn :=
  match texts with
  | [] => ([], r2, None)
  | t :: rest =>
      match r2_cmd r2 t with
      | (Return reply, r2') =>
          let '(more, last, failure) := replies r2' rest in
          (reply :: more, last, failure)
      | (Raise e, r2') => ([], r2', Some e)
      end
  end.

(** The seek commands the hit lines give rise to. *)
Definition seeks (lines : list str) : list str :=
  map (fun line => seek_pd3 (before space line))
    (filter (fun line => truthy (strip line)) lines).

End RunCommand.

(** ** The report and the whole of [main] (lines 115-165) *)

(** [print(text)]: one event per call, the text without the line break
    [print] appends. *)
Definition print (text : str) : M str unit := emit text.

(** Lines 155-161. *)
Definition report (matches : list (str * str)) : M str unit :=
  (if truthy matches then
     print (lit "Found " ++ str_of_int (len matches) ++ lit " direct matches:") ;;;
     for_in matches
       (fun m (_ : unit) => print (fst m ++ [newline] ++ snd m ++ [newline]))
       tt
   else ret tt) ;;;
  if negb (truthy matches) then print (lit "No matches found.") else ret tt.

(** The lines a report consists of. *)
Definition report_header (n : Z) : str :=
  lit "Found " ++ str_of_int n ++ lit " direct matches:".

Definition report_entry (m : str * str) : str :=
  fst m ++ [newline] ++ snd m ++ [newline].

Definition report_lines (matches : list (str * str)) : list str :=
  match matches with
  | [] => [lit "No matches found."]
  | _ :: _ => report_header (len matches) :: map report_entry matches
  end.

(** Everything [main] does to the outside. *)
Inductive io (pattern : Type) : Type :=
| Print (text : str)
| Write (text : str)
| R2 (ev : r2_event)
| Compile (source : str)
| Search (p : pattern) (line : str).
Arguments Print {pattern} text.
Arguments Write {pattern} text.
Arguments R2 {pattern} ev.
Arguments Compile {pattern} source.
Arguments Search {pattern} p line.

Section Main.

Variable pattern : Type.
Variable search : pattern -> str -> bool.
(** [re.compile(source)]: a pattern, or an error for a malformed source. *)
Variable re_compile : str -> outcome pattern.

Variable session : Type.
Variable r2_open : str -> list str -> outcome session.
Variable r2_cmd : session -> str -> outcome str * session.
Variable r2_quit : session -> outcome unit.

(** The clock: two readings and the text of their difference formatted
    with two decimals. *)
Variable clock : Type.
Variable format_elapsed : clock -> clock -> str.

(** The sources of lines 150-151. *)
Definition instr_pattern1 (first_target : str) : str :=
  lit "add\s+(x\d+),\s+x27,\s+" ++ first_target ++ lit ",\s+lsl\s+12".

Definition instr_pattern2 (second_target : str) : str :=
  lit "ldr\s+(x\d+),\s+\[(x\d+),\s+" ++ second_target ++ lit "]".

Definition progress : str := lit "Looking for matches..." ++ ["013"%char].

Definition elapsed_line (start_time end_time : clock) : str :=
  lit "Script execution time: "
    ++ format_elapsed start_time end_time ++ lit " seconds".

Definition compile (source : str) : M (io pattern) pattern :=
  emit (Compile source) ;;; of_outcome (re_compile source).

(** [main] after argument parsing; [start_time] and [end_time] are what
    the clock reads at lines 115 and 163. *)
Definition main (start_time end_time : clock) (binary hex_value : str)
  : M (io pattern) unit :=
  targets <- relog Print (operands hex_value) ;;
  let first_target := fst targets in
  let second_target := snd targets in
  emit (Write (lit "Looking for matches..." ++ ["013"%char])) ;;;
  output <- relog R2
    (run_command session r2_open r2_cmd r2_quit
       binary first_target second_target) ;;
  pattern1 <- compile (instr_pattern1 first_target) ;;
  pattern2 <- compile (instr_pattern2 second_target) ;;
  matches <- relog (fun c => Search (fst c) (snd c))
    (search_patterns pattern search output pattern1 pattern2) ;;
  relog Print (report matches) ;;;
  emit (Print (lit "Script execution time: "
               ++ format_elapsed start_time end_time ++ lit " seconds")).

End Main.

(** ** The number an operand denotes *)

Module Hex.

Definition digit_value (c : ascii) : option Z :=
  let n := Z.of_nat (nat_of_ascii c) in
  if (48 <=? n) && (n <=? 57) then Some (n - 48)
  else if (97 <=? n) && (n <=? 102) then Some (n - 87)
  else None.

(** Digits read most significant first, from the value [acc] so far. *)
Fixpoint digits_value (acc : Z) (ds : str) : option Z :=
  match ds with
  | [] => Some acc
  | c :: ds' =>
      match digit_value c with
      | Some d => digits_value (16 * acc + d) ds'
      | None => None
      end
  end.

(** The value of an operand text as the disassembly writes numbers: an
    optional "0x" and then at least one lower-case hex digit. *)
Definition value (s : str) : option Z :=
  match removeprefix s (lit "0x") with
  | [] => None
  | ds => digits_value 0 ds
  end.

End Hex.

(** ** Collaborators to run the models on *)

Module Demo.

(** A scripted disassembler: the session counts the commands it was sent;
    the reply to the first lists two hits around a blank line, every later
    reply is a window of three lines. *)
Definition hits : str :=
  lit "0x003076fc hit0_0 add x16, x27, 8, lsl 12" ++ [newline]
    ++ lit "   " ++ [newline]
    ++ lit "0x003095bc hit0_1 add x0, x27, 8, lsl 12" ++ [newline].

Definition window_text : str :=
  lit "add x16, x27, 8, lsl 12" ++ [newline]
    ++ lit "ldr x16, [x16, 0x8f0]" ++ [newline]
    ++ lit "nop" ++ [newline].

Definition r2_open (binary : str) (flags : list str) : outcome nat :=
  Return 0%nat.

Definition r2_cmd (r2 : nat) (text : str) : outcome str * nat :=
  (Return (match r2 with O => hits | S _ => window_text end), S r2).

Definition r2_quit (r2 : nat) : outcome unit := Return tt.

(** One that finds nothing, and one that cannot open the binary. *)
Definition r2_cmd_nothing (r2 : nat) (text : str) : outcome str * nat :=
  (Return [newline], S r2).


(** An engine whose patterns are plain texts, found anywhere in a line. *)
Fixpoint contains (needle line : str) : bool :=
  startswith line needle
  || match line with
     | [] => false
     | _ :: line' => contains needle line'
     end.

Definition re_compile (source : str) : outcome str := Return source.

Definition format_elapsed (start_time end_time : unit) : str := lit "0.00".

(** A machine without the library, where the installer succeeds. *)
Definition fresh_machine : Importer.world unit :=
  {| Importer.import_before := fun _ => Raise ImportError;
     Importer.pip_install := fun _ => Importer.Exited 0;
     Importer.import_after := fun _ => Return tt |}.

(** One where the installer exits with code 1. *)
Definition offline_machine : Importer.world unit :=
  {| Importer.import_before := fun _ => Raise ImportError;
     Importer.pip_install := fun _ => Importer.Exited 1;
     Importer.import_after := fun _ => Return tt |}.

End Demo.

(** * Properties *)

(** ** Slices *)

Lemma slice_eq (s : str) (lo hi : option Z) (a b : nat) :
  Z.to_nat (match lo with Some i => clamp (len s) i | None => 0 end) = a ->
  Z.to_nat (match hi with Some j => clamp (len s) j | None => len s end
            - match lo with Some i => clamp (len s) i | None => 0 end) = b ->
  slice s lo hi = firstn b (skipn a s).
Proof. intros <- <-. reflexivity. Qed.

Lemma skipn_length_app {A} (pre suf : list A) :
  skipn (List.length pre) (pre ++ suf) = suf.
Proof. induction pre; simpl; auto. Qed.

Lemma firstn_length_app {A} (pre suf : list A) :
  firstn (List.length pre) (pre ++ suf) = pre.
Proof. induction pre; simpl; congruence. Qed.

Lemma len_app3 (pre : str) (c1 c2 c3 : ascii) :
  len (pre ++ [c1; c2; c3]) = len pre + 3.
Proof. unfold len. rewrite length_app. simpl. lia. Qed.

Ltac slice_side :=
  rewrite ?len_app3; unfold clamp, len; cbn [Z.ltb Z.compare]; lia.

Section LastThree.

Variables (pre : str) (c1 c2 c3 : ascii).

Lemma skipn_tail (k : nat) :
  skipn (List.length pre + k) (pre ++ [c1; c2; c3]) = skipn k [c1; c2; c3].
Proof.
  rewrite skipn_app, Nat.add_comm, skipn_all2 by lia.
  simpl. f_equal. lia.
Qed.

Lemma slice_shift : slice (pre ++ [c1; c2; c3]) (Some 0) (Some (-3)) = pre.
Proof.
  rewrite slice_eq with (a := 0%nat) (b := List.length pre).
  - apply firstn_length_app.
  - slice_side.
  - slice_side.
Qed.

Lemma slice_c1c2 : slice (pre ++ [c1; c2; c3]) (Some (-3)) (Some (-1)) = [c1; c2].
Proof.
  rewrite slice_eq with (a := (List.length pre + 0)%nat) (b := 2%nat).
  - rewrite skipn_tail. reflexivity.
  - slice_side.
  - slice_side.
Qed.

Lemma slice_c1 : slice (pre ++ [c1; c2; c3]) (Some (-3)) (Some (-2)) = [c1].
Proof.
  rewrite slice_eq with (a := (List.length pre + 0)%nat) (b := 1%nat).
  - rewrite skipn_tail. reflexivity.
  - slice_side.
  - slice_side.
Qed.

Lemma slice_c3 : slice (pre ++ [c1; c2; c3]) (Some (-1)) None = [c3].
Proof.
  rewrite slice_eq with (a := (List.length pre + 2)%nat) (b := 1%nat).
  - rewrite skipn_tail. reflexivity.
  - slice_side.
  - slice_side.
Qed.

Lemma slice_c2c3 : slice (pre ++ [c1; c2; c3]) (Some (-2)) None = [c2; c3].
Proof.
  rewrite slice_eq with (a := (List.length pre + 1)%nat) (b := 2%nat).
  - rewrite skipn_tail. reflexivity.
  - slice_side.
  - slice_side.
Qed.

Lemma slice_c1c2c3 : slice (pre ++ [c1; c2; c3]) (Some (-3)) None = [c1; c2; c3].
Proof.
  rewrite slice_eq with (a := (List.length pre + 0)%nat) (b := 3%nat).
  - rewrite skipn_tail. reflexivity.
  - slice_side.
  - slice_side.
Qed.

(** The offset rule on any string with at least three characters. *)
Lemma second_target_last3 :
  second_target (pre ++ [c1; c2; c3]) =
    if (Ascii.eqb c1 "0" && Ascii.eqb c2 "0")%bool then [c3]
    else if Ascii.eqb c1 "0" then lit "0x" ++ [c2; c3]
    else lit "0x" ++ [c1; c2; c3].
Proof.
  unfold second_target.
  rewrite slice_c1c2, slice_c1, slice_c3, slice_c2c3, slice_c1c2c3.
  simpl str_eqb. rewrite !andb_true_r.
  destruct (Ascii.eqb c1 "0"); reflexivity.
Qed.

End LastThree.

(** ** The Operand Decomposer *)

(** C1: for an input "0x" followed by hex digits, of length at least 4,
    whose last three characters are c1 c2 c3, the offset operand is c3 alone
    when c1 c2 is "00", else "0x" + c2 c3 when c1 is "0", else
    "0x" + c1 c2 c3. *)
Theorem second_target_rule (H digits pre : str) (c1 c2 c3 : ascii) :
  H = lit "0x" ++ digits ->
  forallb is_hex_digit digits = true ->
  4 <= len H ->
  H = pre ++ [c1; c2; c3] ->
  second_target H =
    if (Ascii.eqb c1 "0" && Ascii.eqb c2 "0")%bool then [c3]
    else if Ascii.eqb c1 "0" then lit "0x" ++ [c2; c3]
    else lit "0x" ++ [c1; c2; c3].
Proof.
  intros _ _ _ ->. apply second_target_last3.
Qed.

Lemma second_target_rule_witness :
  second_target (lit "0x4052") = lit "0x52".
Proof.
  apply (second_target_rule (lit "0x4052") (lit "4052") (lit "0x4")
           "0"%char "5"%char "2"%char).
  - reflexivity.
  - reflexivity.
  - unfold len. simpl. lia.
  - reflexivity.
Defined.

(** The script validates nothing: whatever the input, both operands are
    computed by slicing, printed, and handed on. *)
Lemma operands_total (H : str) :
  operands H
  = (Return (first_target H, second_target H),
     [lit "The First Target is: " ++ first_target H;
      lit "The Second Target is: " ++ second_target H]).
Proof. reflexivity. Qed.

(** C2, as stated, fails: "0x1" has one character after the prefix and
    "0xzz9" has non-hex characters among its last three, yet for both the
    decomposer raises nothing, prints its two operands and returns them. *)
Lemma operands_malformed_no_error :
  malformed (lit "0x1") = true
  /\ malformed (lit "0xzz9") = true
  /\ ~ (exists e, fst (operands (lit "0x1")) = Raise e)
  /\ ~ (exists e, fst (operands (lit "0xzz9")) = Raise e)
  /\ operands (lit "0x1")
     = (Return ([], lit "0xx1"),
        [lit "The First Target is: "; lit "The Second Target is: 0xx1"])
  /\ operands (lit "0xzz9")
     = (Return (lit "0x", lit "0xzz9"),
        [lit "The First Target is: 0x"; lit "The Second Target is: 0xzz9"]).
Proof.
  repeat split; try reflexivity; intros [e He]; discriminate He.
Qed.

(** C2, amended: for every input string, malformed or not, the decomposer
    raises no error; it returns the operands its slicing rules give and has
    printed exactly those two. *)
Theorem operands_never_raise (H : str) :
  fst (operands H) = Return (first_target H, second_target H)
  /\ (forall e, fst (operands H) <> Raise e)
  /\ snd (operands H)
     = [lit "The First Target is: " ++ first_target H;
        lit "The Second Target is: " ++ second_target H].
Proof.
  rewrite operands_total. simpl. repeat split. discriminate.
Qed.

(** What [lstrip] leaves never begins with a character of the set. *)
Lemma lstrip_head (s chars : str) (c : ascii) :
  mem_char c chars = true -> startswith (lstrip s chars) [c] = false.
Proof.
  intros Hc. induction s as [|c0 s IH]; simpl.
  - reflexivity.
  - destruct (mem_char c0 chars) eqn:E.
    + exact IH.
    + simpl. destruct (Ascii.eqb_spec c0 c) as [->|_].
      * congruence.
      * reflexivity.
Qed.

Lemma stripped_no_zero (s : str) :
  startswith (stripped s) (lit "0") = false.
Proof. apply lstrip_head. reflexivity. Qed.

Lemma drop_leading_zero_stripped (s : str) :
  drop_leading_zero (stripped s) = stripped s.
Proof. unfold drop_leading_zero. now rewrite stripped_no_zero. Qed.

(** C3, as stated, fails: at "0x00123" the shift operand is "0x00"; the
    script's strip leaves nothing of it, where removing the two-character
    prefix leaves "00"; and "00", which does not start with "0x", is not
    left unchanged. *)
Lemma stripped_0x00_differs :
  shift_prefix (lit "0x00123") = lit "0x00"
  /\ stripped (lit "0x00") = []
  /\ removeprefix (lit "0x00") (lit "0x") = lit "00"
  /\ stripped (lit "0x00") <> removeprefix (lit "0x00") (lit "0x")
  /\ startswith (lit "00") (lit "0x") = false
  /\ stripped (lit "00") <> lit "00".
Proof. repeat split; discriminate. Qed.

Lemma lstrip_split (s chars : str) :
  exists removed,
    s = removed ++ lstrip s chars
    /\ forallb (fun c => mem_char c chars) removed = true.
Proof.
  induction s as [|c s [removed [Hs Hall]]]; simpl.
  - exists []. split; reflexivity.
  - destruct (mem_char c chars) eqn:E.
    + exists (c :: removed). simpl. rewrite E, Hall. split; [|reflexivity].
      now rewrite <- Hs.
    + exists []. split; reflexivity.
Qed.

Lemma lstrip_id (s chars : str) :
  match s with [] => True | c :: _ => mem_char c chars = false end ->
  lstrip s chars = s.
Proof. destruct s as [|c s]; simpl; [reflexivity|]. now intros ->. Qed.

(** C3, amended: [stripped] is the shift operand with ALL its leading
    characters from the set {'0','x'} removed, so what is left starts with
    neither; it is the shift operand minus the two characters "0x" when
    what follows them starts with neither '0' nor 'x', and the shift operand
    unchanged when it starts with neither itself. *)
Theorem stripped_is_charset_strip (s rest : str) :
  (exists removed,
      s = removed ++ stripped s
      /\ forallb (fun c => mem_char c (lit "0x")) removed = true
      /\ startswith (stripped s) (lit "0") = false
      /\ startswith (stripped s) (lit "x") = false)
  /\ (startswith rest (lit "0") = false ->
      startswith rest (lit "x") = false ->
      stripped (lit "0x" ++ rest) = rest /\ stripped rest = rest).
Proof.
  split.
  - destruct (lstrip_split s (lit "0x")) as [removed [Hs Hall]].
    exists removed. repeat split; try assumption;
      apply lstrip_head; reflexivity.
  - intros H0 Hx.
    assert (E : lstrip rest (lit "0x") = rest).
    { apply lstrip_id. destruct rest as [|c r]; [exact I|].
      simpl in H0, Hx. rewrite andb_true_r in H0, Hx.
      unfold mem_char. simpl. now rewrite H0, Hx. }
    split; [|exact E]. exact E.
Qed.

Lemma stripped_is_charset_strip_witness :
  (exists removed,
      lit "0x00" = removed ++ stripped (lit "0x00")
      /\ forallb (fun c => mem_char c (lit "0x")) removed = true
      /\ startswith (stripped (lit "0x00")) (lit "0") = false
      /\ startswith (stripped (lit "0x00")) (lit "x") = false)
  /\ stripped (lit "0x" ++ lit "8f") = lit "8f"
  /\ stripped (lit "8f") = lit "8f".
Proof.
  destruct (stripped_is_charset_strip (lit "0x00") (lit "8f")) as [A B].
  split.
  - exact A.
  - apply B; reflexivity.
Defined.

(** C4, as stated, fails: for "0x005123", removing "0x" and one further
    "0" from "0x005" leaves the two characters "05", yet the script
    collapses the shift operand to "5"; for "0x00123" they leave the single
    digit "0", yet the script keeps "0x00". *)
Lemma first_target_differs_from_spec :
  removeprefix (removeprefix (lit "0x005") (lit "0x")) (lit "0") = lit "05"
  /\ first_target (lit "0x005123") = lit "5"
  /\ first_target_spec (lit "0x005123") = lit "0x005"
  /\ removeprefix (removeprefix (lit "0x00") (lit "0x")) (lit "0") = lit "0"
  /\ first_target (lit "0x00123") = lit "0x00"
  /\ first_target_spec (lit "0x00123") = lit "0"
  /\ first_target (lit "0x005123") <> first_target_spec (lit "0x005123")
  /\ first_target (lit "0x00123") <> first_target_spec (lit "0x00123").
Proof. repeat split; discriminate. Qed.

(** C6: "0x88f0" gives shift operand "8" and offset operand "0x8f0". *)
Theorem operands_0x88f0 :
  operands (lit "0x88f0")
  = (Return (lit "8", lit "0x8f0"),
     [lit "The First Target is: 8"; lit "The Second Target is: 0x8f0"]).
Proof. reflexivity. Qed.

(** C8: the string line 132 receives never starts with "0", so the step
    returns it unchanged, and the decomposer without line 132 computes the
    same shift operand for every input. *)
Theorem zero_drop_is_dead :
  (forall s : str,
      startswith (stripped s) (lit "0") = false
      /\ drop_leading_zero (stripped s) = stripped s)
  /\ (forall H : str, first_target H = first_target_no_zero_drop H).
Proof.
  split.
  - intros s. split.
    + apply stripped_no_zero.
    + apply drop_leading_zero_stripped.
  - intros H. unfold first_target, first_target_no_zero_drop.
    now rewrite drop_leading_zero_stripped.
Qed.

Lemma mem_char_app (c : ascii) (l1 l2 : str) :
  mem_char c (l1 ++ l2) = (mem_char c l1 || mem_char c l2)%bool.
Proof. apply existsb_app. Qed.

(** C4, amended: the shift operand is replaced by a bare single character
    exactly when, after ALL leading '0' and 'x' characters are removed from
    H minus its last three characters, one character remains and it is not
    one of a..f (for a hex digit: it is a decimal digit); in every other
    case it keeps H minus its last three characters. *)
Theorem first_target_collapse_rule (H : str) :
  first_target H =
    match lstrip (shift_prefix H) (lit "0x") with
    | [c] => if mem_char c (lit "abcdef") then shift_prefix H else [c]
    | _ => shift_prefix H
    end
  /\ forall c : ascii,
       is_hex_digit c = true ->
       mem_char c (lit "abcdef") = false ->
       is_decimal_digit c = true.
Proof.
  split.
  - unfold first_target. rewrite drop_leading_zero_stripped.
    unfold collapse, stripped.
    destruct (lstrip (shift_prefix H) (lit "0x")) as [|c [|c' r]].
    + reflexivity.
    + unfold mem_str, values, lit. simpl.
      rewrite !andb_true_r, !orb_false_r.
      destruct (_ || _)%bool; reflexivity.
    + replace (len (c :: c' :: r) =? 1) with false; [reflexivity|].
      symmetry. apply Z.eqb_neq. unfold len. simpl List.length. lia.
  - intros c Hhex Hnot. unfold is_hex_digit, is_decimal_digit in *.
    change (lit "0123456789abcdef") with (lit "0123456789" ++ lit "abcdef")
      in Hhex.
    rewrite mem_char_app, Hnot, orb_false_r in Hhex. exact Hhex.
Qed.

Lemma first_target_collapse_rule_witness :
  first_target (lit "0x005123") = lit "5"
  /\ is_decimal_digit "5" = true.
Proof.
  destruct (first_target_collapse_rule (lit "0x005123")) as [A B].
  split.
  - exact A.
  - apply B; reflexivity.
Defined.

(** C9: an input of at most three characters gives the empty shift operand
    without any error, and the offset operand is still computed: by the
    three-character rule on exactly three characters, "0x" + H below that. *)
Theorem short_input_operands (H : str) :
  len H <= 3 ->
  fst (operands H) = Return ([], second_target H)
  /\ second_target H =
       match H with
       | [c1; c2; c3] =>
           if (Ascii.eqb c1 "0" && Ascii.eqb c2 "0")%bool then [c3]
           else if Ascii.eqb c1 "0" then lit "0x" ++ [c2; c3]
           else lit "0x" ++ [c1; c2; c3]
       | _ => lit "0x" ++ H
       end.
Proof.
  intros Hlen. rewrite operands_total. simpl fst.
  destruct H as [|c1 [|c2 [|c3 [|c4 r]]]].
  - split; reflexivity.
  - split; reflexivity.
  - split; [reflexivity|].
    unfold second_target, slice, clamp, len. simpl.
    rewrite andb_false_r. reflexivity.
  - split; [reflexivity|].
    apply (second_target_last3 [] c1 c2 c3).
  - exfalso. unfold len in Hlen. simpl List.length in Hlen. lia.
Qed.

Lemma short_input_operands_witness :
  fst (operands (lit "x7")) = Return ([], second_target (lit "x7"))
  /\ second_target (lit "x7") = lit "0xx7".
Proof.
  apply (short_input_operands (lit "x7")). unfold len. simpl. lia.
Defined.

(** ** The Pattern Matcher *)

Lemma bind_ret {E A B} (a : A) (k : A -> M E B) :
  bind (ret a) k = k a.
Proof. unfold bind, ret. destruct (k a). reflexivity. Qed.

Lemma getitem_nth {E A} (l : list A) (k : nat) (a : A) :
  nth_error l k = Some a -> @getitem E A l (Z.of_nat k) = ret a.
Proof.
  intros Hk. unfold getitem.
  assert (k < List.length l)%nat by (apply nth_error_Some; congruence).
  replace (Z.of_nat k <? 0) with false by (symmetry; apply Z.ltb_ge; lia).
  replace (0 <=? Z.of_nat k) with true by (symmetry; apply Z.leb_le; lia).
  replace (Z.of_nat k <? len l) with true
    by (symmetry; apply Z.ltb_lt; unfold len; lia).
  simpl. now rewrite Nat2Z.id, Hk.
Qed.

Lemma skipn_cons_nth {A} (l : list A) (k : nat) (a : A) :
  nth_error l k = Some a -> skipn k l = a :: skipn (S k) l.
Proof.
  revert l. induction k as [|k IH]; intros [|x l] Hk; try discriminate.
  - simpl in *. congruence.
  - simpl in Hk. apply IH in Hk. exact Hk.
Qed.

Section PatternMatcherProofs.

Variable pattern : Type.
Variable search : pattern -> str -> bool.

Lemma adjacent_cons (x y : str) (l : list str) :
  adjacent (x :: y :: l) = (x, y) :: adjacent (y :: l).
Proof. reflexivity. Qed.

Lemma adjacent_length (output : list str) :
  List.length (adjacent output) = (List.length output - 1)%nat.
Proof.
  unfold adjacent. rewrite length_combine.
  destruct output; cbn [tl List.length]; lia.
Qed.

(** The i-th adjacent pair is (line i, line i+1). *)
Lemma adjacent_nth (output : list str) (i : nat) (a b : str) :
  nth_error (adjacent output) i = Some (a, b)
  <-> nth_error output i = Some a /\ nth_error output (S i) = Some b.
Proof.
  revert i. induction output as [|x [|y l] IH]; intros i.
  - split.
    + destruct i; discriminate.
    + intros [Ha _]. destruct i; discriminate.
  - split.
    + destruct i; discriminate.
    + intros [_ Hb]. destruct i; discriminate.
  - rewrite adjacent_cons. destruct i as [|i].
    + simpl. split.
      * intros [= -> ->]. auto.
      * intros [[= ->] [= ->]]. reflexivity.
    + change (nth_error ((x, y) :: adjacent (y :: l)) (S i))
        with (nth_error (adjacent (y :: l)) i).
      rewrite IH. reflexivity.
Qed.

Variables (output : list str) (pattern1 pattern2 : pattern).

(** One iteration, at an index that has a successor in the sequence. *)
Lemma search_body_step (k : nat) (a b : str) (matches : list (str * str)) :
  nth_error (adjacent output) k = Some (a, b) ->
  search_body pattern search output pattern1 pattern2 (Z.of_nat k) matches
  = (Return (matches ++ filter (both_match pattern search pattern1 pattern2) [(a, b)]),
     calls_of pattern search pattern1 pattern2 (a, b)).
Proof.
  intros Hk. apply adjacent_nth in Hk. destruct Hk as [Ha Hb].
  assert (Hb' : @getitem (pattern * str) _ output (Z.of_nat k + 1) = ret b).
  { replace (Z.of_nat k + 1) with (Z.of_nat (S k)) by lia.
    now apply getitem_nth. }
  unfold search_body, calls_of, both_match, re_search. simpl fst. simpl snd.
  rewrite (getitem_nth output k a Ha), bind_ret.
  unfold emit at 1. unfold bind at 2. unfold ret at 1. unfold bind at 1.
  destruct (search pattern1 a) eqn:E1.
  - rewrite Hb', bind_ret.
    unfold emit at 1. unfold bind at 2. unfold ret at 1. unfold bind at 1.
    simpl filter. rewrite E1.
    destruct (search pattern2 b) eqn:E2.
    + rewrite !bind_ret. reflexivity.
    + simpl. now rewrite app_nil_r.
  - simpl. rewrite E1. simpl. now rewrite app_nil_r.
Qed.

(** The loop over indices k, k+1, ..., k+m-1, all below [len output - 1]. *)
Lemma for_in_window (m k : nat) (matches : list (str * str)) :
  (k + m <= List.length (adjacent output))%nat ->
  for_in (map Z.of_nat (seq k m))
    (search_body pattern search output pattern1 pattern2) matches
  = (Return (matches ++ filter (both_match pattern search pattern1 pattern2)
                          (firstn m (skipn k (adjacent output)))),
     flat_map (calls_of pattern search pattern1 pattern2)
       (firstn m (skipn k (adjacent output)))).
Proof.
  revert k matches. induction m as [|m IH]; intros k matches Hk.
  - simpl. now rewrite app_nil_r.
  - destruct (nth_error (adjacent output) k) as [[a b]|] eqn:E.
    2:{ apply nth_error_None in E. lia. }
    rewrite (skipn_cons_nth _ _ _ E).
    change (seq k (S m)) with (k :: seq (S k) m).
    cbn [map for_in firstn flat_map].
    rewrite (search_body_step k a b matches E).
    unfold bind. rewrite IH by lia.
    rewrite <- app_assoc. simpl filter.
    destruct (both_match pattern search pattern1 pattern2 (a, b)); reflexivity.
Qed.

Lemma search_patterns_eq :
  search_patterns pattern search output pattern1 pattern2
  = (Return (filter (both_match pattern search pattern1 pattern2) (adjacent output)),
     flat_map (calls_of pattern search pattern1 pattern2) (adjacent output)).
Proof.
  unfold search_patterns, range.
  replace (Z.to_nat (len output - 1)) with (List.length (adjacent output))
    by (rewrite adjacent_length; unfold len; lia).
  rewrite for_in_window by lia.
  now rewrite skipn_O, firstn_all.
Qed.

End PatternMatcherProofs.

Lemma filter_none {A} (f : A -> bool) (l : list A) :
  (forall x, In x l -> f x = false) -> filter f l = [].
Proof.
  induction l as [|x l IH]; intros Hf; simpl.
  - reflexivity.
  - rewrite (Hf x) by (left; reflexivity).
    apply IH. intros y Hy. apply Hf. right. exact Hy.
Qed.

Lemma adjacent_indexed (output : list str) :
  adjacent output = indexed_pairs output.
Proof.
  unfold indexed_pairs.
  induction output as [|x [|y l] IH]; try reflexivity.
  rewrite adjacent_cons, IH.
  replace (List.length (x :: y :: l) - 1)%nat
    with (S (List.length (y :: l) - 1)) by (simpl; lia).
  rewrite <- cons_seq. cbn [map]. rewrite <- seq_shift, map_map.
  reflexivity.
Qed.

(** C5: the matcher returns, without error, exactly the pairs
    (line i, line i+1), i = 0 .. L-2 in ascending order, on which pattern 1
    matches line i and pattern 2 matches line i+1, duplicates kept; the
    engine is called once per adjacent pair for pattern 1 (and for
    pattern 2 when pattern 1 matched), so L-1 pairs are tested when L >= 1
    and none when L = 0. *)
Theorem search_patterns_adjacent_pairs
  (pattern : Type) (search : pattern -> str -> bool)
  (output : list str) (pattern1 pattern2 : pattern) :
  search_patterns pattern search output pattern1 pattern2
  = (Return (filter (both_match pattern search pattern1 pattern2)
               (indexed_pairs output)),
     flat_map (calls_of pattern search pattern1 pattern2)
       (indexed_pairs output))
  /\ len (indexed_pairs output) = Z.max 0 (len output - 1).
Proof.
  split.
  - rewrite search_patterns_eq. now rewrite adjacent_indexed.
  - unfold indexed_pairs, len. rewrite length_map, length_seq. lia.
Qed.

(** C7: on a sequence of length 0 or 1, and whenever no adjacent pair
    satisfies both patterns, the matcher returns the empty list and raises
    nothing. *)
Theorem search_patterns_no_match
  (pattern : Type) (search : pattern -> str -> bool)
  (output : list str) (pattern1 pattern2 : pattern) :
  (len output <= 1
   \/ forall (i : nat) (a b : str),
        nth_error output i = Some a ->
        nth_error output (S i) = Some b ->
        (search pattern1 a && search pattern2 b)%bool = false) ->
  fst (search_patterns pattern search output pattern1 pattern2) = Return [].
Proof.
  intros Hno. rewrite search_patterns_eq. simpl fst. f_equal.
  apply filter_none. intros [a b] Hin.
  apply In_nth_error in Hin. destruct Hin as [i Hi].
  destruct Hno as [Hshort | Hno].
  - assert (i < List.length (adjacent output))%nat
      by (apply nth_error_Some; congruence).
    rewrite adjacent_length in *. unfold len in Hshort. lia.
  - apply adjacent_nth in Hi. destruct Hi as [Ha Hb].
    exact (Hno i a b Ha Hb).
Qed.

Lemma search_patterns_no_match_witness :
  fst (search_patterns str str_eqb [lit "nop"] (lit "add") (lit "ldr"))
  = Return []
  /\ fst (search_patterns str str_eqb [lit "ldr"; lit "add"; lit "add"]
            (lit "add") (lit "ldr"))
     = Return [].
Proof.
  split.
  - apply (search_patterns_no_match str str_eqb [lit "nop"]).
    left. unfold len. simpl. lia.
  - apply (search_patterns_no_match str str_eqb
             [lit "ldr"; lit "add"; lit "add"]).
    right. intros [|[|[|i]]] a b Ha Hb; simpl in Ha, Hb;
      try discriminate; injection Ha as <-; injection Hb as <-;
      reflexivity.
Defined.

(** ** [import_library] *)

Import Importer.

(** With [check] false the exit code is handed back whatever it is; with
    [check] true only a zero exit code is. *)
Lemma subprocess_run_check (p : process) (completed : CompletedProcess) :
  subprocess_run p true = Return completed -> returncode completed = 0.
Proof.
  destruct p as [code|e]; simpl; [|discriminate].
  destruct (code =? 0) eqn:E; simpl; [|discriminate].
  intros [= <-]. simpl. now apply Z.eqb_eq.
Qed.

Lemma subprocess_run_unchecked :
  subprocess_run (Exited 1) false = Return {| returncode := 1 |}
  /\ subprocess_run (Exited 1) true = Raise (CalledProcessError 1).
Proof. split; reflexivity. Qed.

(** C10: the branch of line 68 is never entered and the test of line 67 is
    reached only with return code 0; an [AssertionError] that leaves
    [import_library] was raised by an import or by the failure to start the
    installer, not by that branch. *)
Theorem install_failure_branch_unreachable
  (module : Type) (w : world module) (library_name : str)
  (package_name : option str) :
  (forall pt : point,
      In pt (snd (import_library module w library_name package_name)) ->
      (exists p, pt = PipInvoked p) \/ pt = ReturncodeTested 0)
  /\ (forall (p : str) (c : Z),
        fst (import_library module w library_name package_name)
        = Raise (AssertionError p c) ->
        import_before module w library_name = Raise (AssertionError p c)
        \/ import_after module w library_name = Raise (AssertionError p c)
        \/ exists pkg, pip_install module w pkg
                       = NotStarted (AssertionError p c)).
Proof.
  unfold import_library.
  set (pkg := match package_name with None => library_name | Some p => p end).
  destruct (import_before module w library_name) as [m|e] eqn:Eb.
  - split; [intros pt []|discriminate].
  - destruct e; try (split; [intros pt []|intros p c [= -> ->]; auto]).
    destruct (pip_install module w pkg) as [code|e] eqn:Ep; simpl.
    + destruct (code =? 0) eqn:E0; simpl.
      * apply Z.eqb_eq in E0. subst code.
        destruct (import_after module w library_name) as [m|e] eqn:Ea; simpl.
        -- split; [|discriminate].
           intros pt [<-|[<-|[]]]; eauto.
        -- split.
           ++ intros pt [<-|[<-|[]]]; eauto.
           ++ intros p c [= ->]. auto.
      * split; [|discriminate].
        intros pt [<-|[]]; eauto.
    + split.
      * intros pt [<-|[]]; eauto.
      * intros p c [= ->]. eauto.
Qed.

Lemma install_failure_branch_unreachable_witness :
  let w := {| import_before := fun _ => Raise ImportError;
              pip_install := fun _ => Exited 0;
              import_after := fun _ => Return tt |} in
  snd (import_library unit w (lit "r2pipe") None)
  = [PipInvoked (lit "r2pipe"); ReturncodeTested 0]
  /\ ((exists p, ReturncodeTested 0 = PipInvoked p)
      \/ ReturncodeTested 0 = ReturncodeTested 0).
Proof.
  intros w. split.
  - reflexivity.
  - apply (proj1 (install_failure_branch_unreachable unit w (lit "r2pipe") None)).
    simpl. right. left. reflexivity.
Defined.

(** * The rest of the script *)

(** ** [split], [strip] *)

Lemma split_cons (s : str) (sep : ascii) :
  exists piece rest, split s sep = piece :: rest.
Proof.
  induction s as [|c s [piece [rest IH]]]; simpl.
  - eauto.
  - destruct (Ascii.eqb c sep); [eauto|]. rewrite IH. eauto.
Qed.

Lemma split_head (s : str) (sep : ascii) :
  hd [] (split s sep) = before sep s.
Proof.
  induction s as [|c s IH]; simpl.
  - reflexivity.
  - destruct (Ascii.eqb c sep); [reflexivity|].
    destruct (split_cons s sep) as [piece [rest E]].
    rewrite E in *. simpl in *. now rewrite IH.
Qed.

(** Joining the pieces with the separator gives the string back. *)
Lemma join_split (s : str) (sep : ascii) :
  join sep (split s sep) = s.
Proof.
  induction s as [|c s IH]; simpl.
  - reflexivity.
  - destruct (split_cons s sep) as [piece [rest E]]. rewrite E in *.
    destruct (Ascii.eqb_spec c sep) as [->|_].
    + change (join sep ([] :: piece :: rest))
        with (sep :: join sep (piece :: rest)).
      now rewrite IH.
    + destruct rest as [|r rest'].
      * simpl in *. now rewrite IH.
      * change (join sep ((c :: piece) :: r :: rest'))
          with (c :: join sep (piece :: r :: rest')).
        now rewrite IH.
Qed.

Lemma split_no_sep (s : str) (sep : ascii) :
  Forall (fun piece => mem_char sep piece = false) (split s sep).
Proof.
  induction s as [|c s IH]; simpl.
  - repeat constructor.
  - destruct (Ascii.eqb c sep) eqn:E.
    + constructor; [reflexivity|exact IH].
    + destruct (split_cons s sep) as [piece [rest E']]. rewrite E' in *.
      inversion IH as [|? ? Hp Hr]; subst. constructor; [|exact Hr].
      unfold mem_char in *. simpl. rewrite Ascii.eqb_sym, E. exact Hp.
Qed.

Lemma getitem_split_0 {E} (s : str) (sep : ascii) :
  @getitem E _ (split s sep) 0 = ret (before sep s).
Proof.
  rewrite <- split_head.
  destruct (split_cons s sep) as [piece [rest ->]].
  unfold getitem, len. simpl List.length.
  replace (0 <? Z.of_nat (S (List.length rest))) with true
    by (symmetry; apply Z.ltb_lt; lia).
  reflexivity.
Qed.

Lemma lstrip_nil_iff (s chars : str) :
  lstrip s chars = [] <-> forallb (fun c => mem_char c chars) s = true.
Proof.
  induction s as [|c s IH]; simpl.
  - tauto.
  - destruct (mem_char c chars); simpl; [exact IH|].
    split; discriminate.
Qed.

Lemma lstrip_suffix (s chars : str) :
  exists removed, s = removed ++ lstrip s chars
    /\ forallb (fun c => mem_char c chars) removed = true.
Proof.
  induction s as [|c s [removed [Hs Hall]]]; simpl.
  - exists []. split; reflexivity.
  - destruct (mem_char c chars) eqn:E.
    + exists (c :: removed). simpl. rewrite E, Hall. split; [|reflexivity].
      now rewrite <- Hs.
    + exists []. split; reflexivity.
Qed.

Lemma lstrip_first (s chars : str) (c : ascii) (t : str) :
  lstrip s chars = c :: t -> mem_char c chars = false.
Proof.
  induction s as [|c0 s IH]; simpl; [discriminate|].
  destruct (mem_char c0 chars) eqn:E; [exact IH|].
  intros [= -> _]. exact E.
Qed.

(** A line survives [strip()] exactly when it has a character that is not
    white space. *)
Lemma strip_truthy (s : str) :
  truthy (strip s) = existsb (fun c => negb (mem_char c whitespace)) s.
Proof.
  unfold strip, rstrip.
  destruct (lstrip_suffix s whitespace) as [removed [Hs Hall]].
  destruct (lstrip s whitespace) as [|c t'] eqn:Et.
  - rewrite app_nil_r in Hs. subst removed.
    change (truthy (rev (lstrip (rev []) whitespace))) with false.
    symmetry. apply not_true_is_false. intros Hex.
    apply existsb_exists in Hex. destruct Hex as [c [Hin Hc]].
    rewrite forallb_forall in Hall. specialize (Hall c Hin).
    cbv beta in Hall. rewrite Hall in Hc. discriminate.
  - pose proof (lstrip_first _ _ _ _ Et) as Hc.
    transitivity true.
    + destruct (lstrip (rev (c :: t')) whitespace) as [|x r] eqn:El.
      * apply lstrip_nil_iff in El. rewrite forallb_forall in El.
        assert (Hw : mem_char c whitespace = true).
        { apply (El c). apply in_rev. rewrite rev_involutive.
          left. reflexivity. }
        congruence.
      * simpl. destruct (rev r ++ [x]) eqn:Er; [|reflexivity].
        apply app_eq_nil in Er. destruct Er as [_ Er]. discriminate.
    + symmetry. apply existsb_exists. exists c. split.
      * rewrite Hs. apply in_or_app. right. left. reflexivity.
      * now rewrite Hc.
Qed.

(** ** [run_command] *)

Lemma bind_Return {E A B} (a : A) (log : list E) (k : A -> M E B) :
  bind (Return a, log) k = after log (k a).
Proof. unfold bind, after. destruct (k a). reflexivity. Qed.

Lemma bind_Raise {E A B} (e : exn) (log : list E) (k : A -> M E B) :
  bind (Raise e, log) k = (Raise e, log).
Proof. reflexivity. Qed.

Section RunCommandProofs.

Variable session : Type.
Variable r2_open : str -> list str -> outcome session.
Variable r2_cmd : session -> str -> outcome str * session.
Variable r2_quit : session -> outcome unit.

Lemma cmd_eq (r2 : session) (text : str) :
  cmd session r2_cmd r2 text =
    match r2_cmd r2 text with
    | (Return reply, r2') => (Return (reply, r2'), [R2Cmd text])
    | (Raise e, _) => (Raise e, [R2Cmd text])
    end.
Proof.
  unfold cmd, bind, emit.
  destruct (r2_cmd r2 text) as [[reply|e] r2']; reflexivity.
Qed.

Lemma seeks_cons (line : str) (lines : list str) :
  seeks (line :: lines) =
    if truthy (strip line)
    then seek_pd3 (before space line) :: seeks lines
    else seeks lines.
Proof.
  unfold seeks. simpl filter.
  destruct (truthy (strip line)); reflexivity.
Qed.

(** The loop of lines 83-85 in closed form. *)
Lemma windows_eq (lines : list str) (output : str) (r2 : session) :
  for_in lines (window session r2_cmd) (output, r2) =
    match replies session r2_cmd r2 (seeks lines) with
    | (rs, last, None) =>
        (Return (output ++ List.concat rs, last), map R2Cmd (seeks lines))
    | (rs, _, Some e) =>
        (Raise e, map R2Cmd (firstn (S (List.length rs)) (seeks lines)))
    end.
Proof.
  revert output r2. induction lines as [|line lines IH]; intros output r2.
  - simpl. now rewrite app_nil_r.
  - cbn [for_in]. rewrite seeks_cons. unfold window at 1.
    destruct (truthy (strip line)).
    + rewrite getitem_split_0, bind_ret, cmd_eq.
      cbn [replies].
      destruct (r2_cmd r2 (seek_pd3 (before space line))) as [[reply|e] r2'].
      * rewrite bind_Return. unfold ret, after at 1. cbn [fst snd app].
        rewrite bind_Return, IH.
        destruct (replies session r2_cmd r2' (seeks lines))
          as [[rs last] [e|]].
        -- reflexivity.
        -- unfold after. cbn [List.concat fst snd app map].
           now rewrite app_assoc.
      * reflexivity.
    + rewrite bind_ret. apply IH.
Qed.

(** [run_command] in closed form: what it returns and what it has asked
    of the disassembler, in every case. *)
Lemma run_command_eq (binary first_target second_target : str) :
  run_command session r2_open r2_cmd r2_quit binary first_target second_target
  = let opened := R2Open binary r2_flags in
    let asked := R2Cmd (query first_target second_target) in
    match r2_open binary r2_flags with
    | Raise e => (Raise e, [opened])
    | Return r2 =>
        match r2_cmd r2 (query first_target second_target) with
        | (Raise e, _) => (Raise e, [opened; asked])
        | (Return found, r2') =>
            let texts := seeks (split found newline) in
            match replies session r2_cmd r2' texts with
            | (rs, _, Some e) =>
                (Raise e,
                 opened :: asked
                   :: map R2Cmd (firstn (S (List.length rs)) texts))
            | (rs, last, None) =>
                match r2_quit last with
                | Raise e =>
                    (Raise e,
                     opened :: asked :: map R2Cmd texts ++ [R2Quit])
                | Return _ =>
                    (Return (split (List.concat rs) newline),
                     opened :: asked :: map R2Cmd texts ++ [R2Quit])
                end
            end
        end
    end.
Proof.
  unfold run_command. cbv zeta.
  unfold emit at 1. rewrite bind_Return. unfold of_outcome at 1.
  destruct (r2_open binary r2_flags) as [r2|e]; [|reflexivity].
  rewrite bind_Return, cmd_eq.
  destruct (r2_cmd r2 (query first_target second_target))
    as [[found|e] r2']; [|reflexivity].
  rewrite bind_Return. cbn [fst snd]. rewrite windows_eq.
  destruct (replies session r2_cmd r2' (seeks (split found newline)))
    as [[rs last] [e|]]; [reflexivity|].
  rewrite bind_Return. unfold emit. rewrite bind_Return.
  unfold of_outcome. cbn [fst snd].
  destruct (r2_quit last) as [[]|e].
  - rewrite bind_Return. unfold ret, after. cbn [fst snd app].
    rewrite ?app_nil_r. reflexivity.
  - rewrite bind_Raise. unfold after. cbn [fst snd app]. reflexivity.
Qed.

End RunCommandProofs.

(** ** The report *)

Lemma report_loop (matches : list (str * str)) :
  for_in matches (fun m (_ : unit) => print (report_entry m)) tt
  = (Return tt, map report_entry matches).
Proof.
  induction matches as [|m matches IH]; [reflexivity|].
  cbn [for_in]. unfold print at 1, emit. rewrite bind_Return, IH.
  reflexivity.
Qed.

Lemma report_eq (matches : list (str * str)) :
  report matches = (Return tt, report_lines matches).
Proof.
  unfold report. destruct matches as [|m matches]; [reflexivity|].
  cbn [truthy negb]. unfold print at 1, emit. rewrite bind_Return.
  rewrite report_loop. unfold after at 1. cbn [fst snd app].
  rewrite bind_Return. unfold after, ret. cbn [fst snd].
  now rewrite app_nil_r.
Qed.

(** ** [main] *)

Lemma after_after {E A} (l1 l2 : list E) (m : M E A) :
  after l1 (after l2 m) = after (l1 ++ l2) m.
Proof. unfold after. cbn [fst snd]. now rewrite app_assoc. Qed.

Lemma after_pair {E A} (l : list E) (r : outcome A) (log : list E) :
  after l (r, log) = (r, l ++ log).
Proof. reflexivity. Qed.

Section MainProofs.

Variable pattern : Type.
Variable search : pattern -> str -> bool.
Variable re_compile : str -> outcome pattern.
Variable session : Type.
Variable r2_open : str -> list str -> outcome session.
Variable r2_cmd : session -> str -> outcome str * session.
Variable r2_quit : session -> outcome unit.
Variable clock : Type.
Variable format_elapsed : clock -> clock -> str.

Variables (start_time end_time : clock) (binary hex_value : str).

Lemma compile_eq (source : str) :
  compile pattern re_compile source = (re_compile source, [Compile source]).
Proof.
  unfold compile, emit, of_outcome, bind.
  destruct (re_compile source); reflexivity.
Qed.

(** [main] in closed form: the events in the order they happen, and where
    it stops when a collaborator raises. *)
Lemma main_eq :
  main pattern search re_compile session r2_open r2_cmd r2_quit
    clock format_elapsed start_time end_time binary hex_value
  = let ft := first_target hex_value in
    let st := second_target hex_value in
    after [Print (lit "The First Target is: " ++ ft);
           Print (lit "The Second Target is: " ++ st);
           Write progress]
      match run_command session r2_open r2_cmd r2_quit binary ft st with
      | (Raise e, asked) => (Raise e, map R2 asked)
      | (Return output, asked) =>
          after (map R2 asked ++ [Compile (instr_pattern1 ft)])
            match re_compile (instr_pattern1 ft) with
            | Raise e => (Raise e, [])
            | Return pattern1 =>
                after [Compile (instr_pattern2 st)]
                  match re_compile (instr_pattern2 st) with
                  | Raise e => (Raise e, [])
                  | Return pattern2 =>
                      (Return tt,
                       map (fun c => Search (fst c) (snd c))
                         (flat_map (calls_of pattern search pattern1 pattern2)
                            (adjacent output))
                       ++ map Print
                            (report_lines
                               (filter
                                  (both_match pattern search pattern1 pattern2)
                                  (adjacent output)))
                       ++ [Print (elapsed_line clock format_elapsed
                                    start_time end_time)])
                  end
            end
      end.
Proof.
  unfold main. rewrite operands_total. unfold relog at 1.
  cbn [fst snd map]. rewrite bind_Return. cbn [fst snd].
  unfold emit at 1. rewrite bind_Return, after_after. cbn [app].
  cbv zeta. f_equal.
  destruct (run_command session r2_open r2_cmd r2_quit binary
              (first_target hex_value) (second_target hex_value))
    as [[output|e] asked]; unfold relog at 1; cbn [fst snd];
    [|reflexivity].
  rewrite bind_Return, !compile_eq.
  destruct (re_compile (instr_pattern1 (first_target hex_value)))
    as [pattern1|e].
  2:{ rewrite bind_Raise. unfold after. cbn [fst snd].
      now rewrite app_nil_r. }
  rewrite bind_Return.
  destruct (re_compile (instr_pattern2 (second_target hex_value)))
    as [pattern2|e].
  2:{ rewrite bind_Raise. unfold after. cbn [fst snd app].
      now rewrite <- app_assoc. }
  rewrite bind_Return, search_patterns_eq. unfold relog at 1.
  cbn [fst snd]. rewrite bind_Return, report_eq. unfold relog.
  cbn [fst snd]. rewrite bind_Return. unfold emit, after.
  cbn [fst snd app]. rewrite <- !app_assoc. reflexivity.
Qed.

End MainProofs.

(** ** What [run_command] and [main] guarantee *)

Section CollaboratorProofs.

Variable session : Type.
Variable r2_open : str -> list str -> outcome session.
Variable r2_cmd : session -> str -> outcome str * session.
Variable r2_quit : session -> outcome unit.



(** X2: when nothing raises, [run_command] sends the query and then, for
    each line of the reply that has a character other than white space, in
    order, one "s <address>;pd3" whose address is the text of the line
    before its first space; blank lines send nothing.  It returns the lines
    of the concatenated replies. *)
Theorem run_command_commands
  (binary first_target second_target found : str)
  (r2 r2' last : session) (rs : list str) :
  let texts :=
    map (fun line => lit "s " ++ before space line ++ lit ";pd3")
      (filter (existsb (fun c => negb (mem_char c whitespace)))
         (split found newline)) in
  r2_open binary r2_flags = Return r2 ->
  r2_cmd r2 (query first_target second_target) = (Return found, r2') ->
  replies session r2_cmd r2' texts = (rs, last, None) ->
  r2_quit last = Return tt ->
  run_command session r2_open r2_cmd r2_quit binary first_target second_target
  = (Return (split (List.concat rs) newline),
     R2Open binary r2_flags
       :: R2Cmd (query first_target second_target)
       :: map R2Cmd texts ++ [R2Quit]).
Proof.
  cbv zeta. intros Ho Hq Hr Hquit.
  assert (Es : seeks (split found newline)
               = map (fun line => lit "s " ++ before space line ++ lit ";pd3")
                   (filter (existsb (fun c => negb (mem_char c whitespace)))
                      (split found newline))).
  { unfold seeks. f_equal. apply filter_ext. intros line.
    apply strip_truthy. }
  rewrite run_command_eq. cbv zeta. rewrite Ho, Hq, Es, Hr, Hquit.
  reflexivity.
Qed.

(** X3: the list [run_command] returns is never empty and none of its
    lines contains a line break; so [search_patterns] tests exactly
    [len(output) - 1] adjacent pairs of it. *)
Theorem run_command_lines
  (binary first_target second_target : str) (lines : list str) :
  fst (run_command session r2_open r2_cmd r2_quit
         binary first_target second_target) = Return lines ->
  1 <= len lines
  /\ Forall (fun line => mem_char newline line = false) lines
  /\ len (adjacent lines) = len lines - 1.
Proof.
  rewrite run_command_eq. cbv zeta.
  destruct (r2_open binary r2_flags) as [r2|e]; [|discriminate].
  destruct (r2_cmd r2 (query first_target second_target))
    as [[found|e] r2']; [|discriminate].
  destruct (replies session r2_cmd r2' (seeks (split found newline)))
    as [[rs last] [e|]]; [discriminate|].
  destruct (r2_quit last) as [[]|e]; [|discriminate].
  cbn [fst]. intros [= <-].
  assert (L : 1 <= len (split (List.concat rs) newline)).
  { destruct (split_cons (List.concat rs) newline) as [p [r ->]].
    unfold len. simpl List.length. lia. }
  split; [exact L|]. split; [apply split_no_sep|].
  unfold len in *. rewrite adjacent_length. lia.
Qed.

End CollaboratorProofs.

Section MainTheorems.

Variable pattern : Type.
Variable search : pattern -> str -> bool.
Variable re_compile : str -> outcome pattern.
Variable session : Type.
Variable r2_open : str -> list str -> outcome session.
Variable r2_cmd : session -> str -> outcome str * session.
Variable r2_quit : session -> outcome unit.
Variable clock : Type.
Variable format_elapsed : clock -> clock -> str.

Variables (start_time end_time : clock) (binary hex_value : str).





(** X5: when [main] completes, everything happened in this order: the two
    operand lines, the progress text, the whole session with the
    disassembler, the compilation of pattern 1 then pattern 2, the
    searches over the adjacent pairs of the returned lines, the report on
    the pairs that matched, and last the execution time. *)
Theorem main_completes :
  let run := main pattern search re_compile session r2_open r2_cmd r2_quit
               clock format_elapsed start_time end_time binary hex_value in
  let ft := first_target hex_value in
  let st := second_target hex_value in
  fst run = Return tt ->
  exists output asked pattern1 pattern2,
    run_command session r2_open r2_cmd r2_quit binary ft st
    = (Return output, asked)
    /\ re_compile (instr_pattern1 ft) = Return pattern1
    /\ re_compile (instr_pattern2 st) = Return pattern2
    /\ snd run
       = [Print (lit "The First Target is: " ++ ft);
          Print (lit "The Second Target is: " ++ st);
          Write progress]
         ++ map R2 asked
         ++ [Compile (instr_pattern1 ft); Compile (instr_pattern2 st)]
         ++ map (fun c => Search (fst c) (snd c))
              (flat_map (calls_of pattern search pattern1 pattern2)
                 (adjacent output))
         ++ map Print
              (report_lines
                 (filter (both_match pattern search pattern1 pattern2)
                    (adjacent output)))
         ++ [Print (elapsed_line clock format_elapsed start_time end_time)].
Proof.
  cbv zeta. rewrite main_eq. cbv zeta.
  destruct (run_command session r2_open r2_cmd r2_quit binary
              (first_target hex_value) (second_target hex_value))
    as [[output|e0] asked] eqn:Erun; [|discriminate].
  destruct (re_compile (instr_pattern1 (first_target hex_value)))
    as [pattern1|e1] eqn:E1; [|discriminate].
  destruct (re_compile (instr_pattern2 (second_target hex_value)))
    as [pattern2|e2] eqn:E2; [|discriminate].
  intros _. exists output, asked, pattern1, pattern2.
  repeat split. unfold after. cbn [fst snd app].
  rewrite <- !app_assoc. reflexivity.
Qed.

(** X6: when the query finds nothing (every line of its reply is blank),
    no window is requested, no search is made, and [main] reports
    "No matches found." *)
Theorem main_no_hits (found : str) (r2 r2' : session)
  (pattern1 pattern2 : pattern) :
  let ft := first_target hex_value in
  let st := second_target hex_value in
  r2_open binary r2_flags = Return r2 ->
  r2_cmd r2 (query ft st) = (Return found, r2') ->
  forallb (forallb (fun c => mem_char c whitespace)) (split found newline)
  = true ->
  r2_quit r2' = Return tt ->
  re_compile (instr_pattern1 ft) = Return pattern1 ->
  re_compile (instr_pattern2 st) = Return pattern2 ->
  main pattern search re_compile session r2_open r2_cmd r2_quit
    clock format_elapsed start_time end_time binary hex_value
  = (Return tt,
     [Print (lit "The First Target is: " ++ ft);
      Print (lit "The Second Target is: " ++ st);
      Write progress;
      R2 (R2Open binary r2_flags);
      R2 (R2Cmd (query ft st));
      R2 R2Quit;
      Compile (instr_pattern1 ft);
      Compile (instr_pattern2 st);
      Print (lit "No matches found.");
      Print (elapsed_line clock format_elapsed start_time end_time)]).
Proof.
  cbv zeta. intros Ho Hq Hblank Hquit H1 H2.
  assert (Es : seeks (split found newline) = []).
  { unfold seeks. replace (filter _ _) with (@nil str); [reflexivity|].
    symmetry. apply filter_none. intros line Hin.
    rewrite strip_truthy. rewrite forallb_forall in Hblank.
    specialize (Hblank line Hin). apply not_true_is_false. intros Hex.
    apply existsb_exists in Hex. destruct Hex as [c [Hc Hn]].
    rewrite forallb_forall in Hblank. rewrite (Hblank c Hc) in Hn.
    discriminate. }
  rewrite main_eq. cbv zeta. rewrite run_command_eq. cbv zeta.
  rewrite Ho, Hq, Es. cbn [replies]. rewrite Hquit, H1, H2.
  reflexivity.
Qed.

End MainTheorems.

(** ** The numbers the operands denote *)

Lemma hex_digit_value (c : ascii) :
  is_hex_digit c = true ->
  exists d, Hex.digit_value c = Some d /\ 0 <= d < 16.
Proof.
  destruct c as [[] [] [] [] [] [] [] []]; intros Hc;
    try discriminate Hc; eexists;
    (split; [reflexivity|vm_compute; split; [discriminate|reflexivity]]).
Qed.

Lemma hex_digit_in_0x (c : ascii) :
  is_hex_digit c = true -> mem_char c (lit "0x") = true -> c = "0"%char.
Proof.
  destruct c as [[] [] [] [] [] [] [] []]; intros Hc Hx;
    try discriminate Hc; try discriminate Hx; reflexivity.
Qed.

Lemma digits_value_app (acc : Z) (a b : str) :
  Hex.digits_value acc (a ++ b) =
    match Hex.digits_value acc a with
    | Some v => Hex.digits_value v b
    | None => None
    end.
Proof.
  revert acc. induction a as [|c a IH]; intros acc; simpl.
  - reflexivity.
  - destruct (Hex.digit_value c); [apply IH|reflexivity].
Qed.

Lemma digits_value_total (acc : Z) (ds : str) :
  forallb is_hex_digit ds = true ->
  exists v, Hex.digits_value acc ds = Some v.
Proof.
  revert acc. induction ds as [|c ds IH]; intros acc Hds; simpl in *.
  - eauto.
  - apply andb_prop in Hds. destruct Hds as [Hc Hds].
    destruct (hex_digit_value c Hc) as [d [-> _]]. now apply IH.
Qed.

Lemma digits_value_zeros (zs : str) :
  forallb is_hex_digit zs = true ->
  forallb (fun c => mem_char c (lit "0x")) zs = true ->
  Hex.digits_value 0 zs = Some 0.
Proof.
  induction zs as [|c zs IH]; intros Hh Hz; simpl in *.
  - reflexivity.
  - apply andb_prop in Hh. destruct Hh as [Hc Hh].
    apply andb_prop in Hz. destruct Hz as [Hcz Hz].
    rewrite (hex_digit_in_0x c Hc Hcz). simpl. now apply IH.
Qed.

Lemma value_single (c : ascii) :
  Hex.value [c] = Hex.digits_value 0 [c].
Proof.
  unfold Hex.value, removeprefix. simpl startswith.
  now rewrite andb_false_r.
Qed.

Lemma value_0x (ds : str) :
  ds <> [] -> Hex.value (lit "0x" ++ ds) = Hex.digits_value 0 ds.
Proof.
  intros Hne. unfold Hex.value.
  change (removeprefix (lit "0x" ++ ds) (lit "0x")) with ds.
  destruct ds; [congruence|reflexivity].
Qed.

Lemma first_target_either (H : str) :
  first_target H = shift_prefix H
  \/ exists c, lstrip (shift_prefix H) (lit "0x") = [c]
               /\ first_target H = [c].
Proof.
  unfold first_target. rewrite drop_leading_zero_stripped.
  unfold collapse, stripped.
  destruct (lstrip (shift_prefix H) (lit "0x")) as [|c [|c' r]].
  - now left.
  - destruct ((len [c] =? 1) && negb (mem_str [c] values))%bool;
      [right; eauto|now left].
  - left. replace (len (c :: c' :: r) =? 1) with false; [reflexivity|].
    symmetry. apply Z.eqb_neq. unfold len. simpl List.length. lia.
Qed.

(** X8: for an input "0x" followed by at least four lower-case hex
    digits, both operands denote numbers, the offset operand is below
    0x1000, and together they are the input: value = shift * 0x1000 +
    offset. *)
Theorem operands_value (ds : str) (c1 c2 c3 : ascii) :
  let H := lit "0x" ++ ds ++ [c1; c2; c3] in
  ds <> [] ->
  forallb is_hex_digit (ds ++ [c1; c2; c3]) = true ->
  exists hi lo,
    Hex.value (first_target H) = Some hi
    /\ Hex.value (second_target H) = Some lo
    /\ 0 <= lo < 4096
    /\ Hex.value H = Some (4096 * hi + lo).
Proof.
  cbv zeta. intros Hne Hhex.
  rewrite forallb_app in Hhex. apply andb_prop in Hhex.
  destruct Hhex as [Hds Ht]. simpl in Ht.
  rewrite andb_true_r in Ht.
  apply andb_prop in Ht. destruct Ht as [H1 Ht].
  apply andb_prop in Ht. destruct Ht as [H2 H3].
  destruct (digits_value_total 0 ds Hds) as [hi Ehi].
  destruct (hex_digit_value c1 H1) as [d1 [E1 R1]].
  destruct (hex_digit_value c2 H2) as [d2 [E2 R2]].
  destruct (hex_digit_value c3 H3) as [d3 [E3 R3]].
  assert (Eshift : shift_prefix (lit "0x" ++ ds ++ [c1; c2; c3])
                   = lit "0x" ++ ds)
    by apply (slice_shift (lit "0x" ++ ds) c1 c2 c3).
  assert (Efirst : Hex.value (first_target (lit "0x" ++ ds ++ [c1; c2; c3]))
                   = Some hi).
  { destruct (first_target_either (lit "0x" ++ ds ++ [c1; c2; c3]))
      as [->|[c [Hc ->]]]; rewrite Eshift in *.
    - now rewrite value_0x.
    - change (lstrip (lit "0x" ++ ds) (lit "0x"))
        with (lstrip ds (lit "0x")) in Hc.
      destruct (lstrip_suffix ds (lit "0x")) as [zs [Hs Hz]].
      rewrite Hc in Hs. rewrite value_single, <- Ehi, Hs.
      rewrite Hs, forallb_app in Hds. apply andb_prop in Hds.
      rewrite digits_value_app, (digits_value_zeros zs); tauto. }
  exists hi.
  assert (Ewhole : Hex.value (lit "0x" ++ ds ++ [c1; c2; c3])
                   = Some (16 * (16 * (16 * hi + d1) + d2) + d3)).
  { rewrite value_0x by (destruct ds; [congruence|discriminate]).
    rewrite digits_value_app, Ehi. cbn [Hex.digits_value].
    now rewrite E1, E2, E3. }
  rewrite Efirst, Ewhole.
  change (lit "0x" ++ ds ++ [c1; c2; c3])
    with ((lit "0x" ++ ds) ++ [c1; c2; c3]).
  rewrite second_target_last3.
  destruct (Ascii.eqb_spec c1 "0") as [->|_]; cbn [andb].
  - vm_compute in E1. injection E1 as <-.
    destruct (Ascii.eqb_spec c2 "0") as [->|_].
    + vm_compute in E2. injection E2 as <-. exists d3. rewrite value_single.
      cbn [Hex.digits_value]. rewrite E3.
      repeat split; try lia. f_equal. lia.
    + exists (16 * d2 + d3). rewrite value_0x by discriminate.
      cbn [Hex.digits_value]. rewrite E2, E3.
      repeat split; try lia. f_equal. lia.
  - exists (16 * (16 * d1 + d2) + d3).
    rewrite value_0x by discriminate.
    cbn [Hex.digits_value]. rewrite E1, E2, E3.
    repeat split; try lia. f_equal. lia.
Qed.

(** X9: for "0x" followed by exactly three characters (a value below
    0x1000) the shift operand is the bare prefix "0x", which denotes no
    number, and that is what the query asks the disassembler for. *)
Theorem first_target_three_digits (c1 c2 c3 : ascii) :
  let H := lit "0x" ++ [c1; c2; c3] in
  first_target H = lit "0x"
  /\ Hex.value (first_target H) = None
  /\ query (first_target H) (second_target H)
     = lit "/ad/ add.*, x27, 0x, lsl 12; .*, [.*, "
         ++ second_target H ++ lit "]".
Proof.
  cbv zeta.
  assert (E : first_target (lit "0x" ++ [c1; c2; c3]) = lit "0x").
  { assert (S : shift_prefix (lit "0x" ++ [c1; c2; c3]) = lit "0x")
      by apply (slice_shift (lit "0x") c1 c2 c3).
    unfold first_target. rewrite S. reflexivity. }
  rewrite E. repeat split.
Qed.

(** X10: on any input of at least three characters the offset operand
    ends with the last character of the input and is either that character
    alone or "0x" followed by two or three characters of which the first is
    not '0'. *)
Theorem second_target_canonical (pre : str) (c1 c2 c3 : ascii) :
  let st := second_target (pre ++ [c1; c2; c3]) in
  st = [c3]
  \/ exists d rest,
       st = lit "0x" ++ d :: rest
       /\ d <> "0"%char
       /\ (rest = [c3] \/ exists c, rest = [c; c3]).
Proof.
  cbv zeta. rewrite second_target_last3.
  destruct (Ascii.eqb_spec c1 "0") as [->|N1]; cbn [andb].
  - destruct (Ascii.eqb_spec c2 "0") as [->|N2].
    + now left.
    + right. exists c2, [c3]. auto.
  - right. exists c1, [c2; c3]. repeat split; eauto.
Qed.

Lemma operands_value_witness :
  exists hi lo,
    Hex.value (first_target (lit "0x88f0")) = Some hi
    /\ Hex.value (second_target (lit "0x88f0")) = Some lo
    /\ 0 <= lo < 4096
    /\ Hex.value (lit "0x88f0") = Some (4096 * hi + lo).
Proof.
  apply (operands_value (lit "8") "8"%char "f"%char "0"%char).
  - discriminate.
  - reflexivity.
Defined.

(** ** The report *)

(** X7: the report never fails; for no match it is the one line
    "No matches found."; otherwise it is a header with the number of
    matches followed by one entry per match, in order, and never the
    no-match line. *)
Theorem report_shape (matches : list (str * str)) :
  fst (report matches) = Return tt
  /\ (matches = [] -> snd (report matches) = [lit "No matches found."])
  /\ (matches <> [] ->
      snd (report matches)
      = (lit "Found " ++ str_of_int (len matches) ++ lit " direct matches:")
          :: map (fun m => fst m ++ [newline] ++ snd m ++ [newline]) matches).
Proof.
  rewrite report_eq. cbn [fst snd]. split; [reflexivity|]. split.
  - intros ->. reflexivity.
  - intros Hne. destruct matches; [congruence|reflexivity].
Qed.

Lemma report_shape_witness :
  snd (report [(lit "add x16, x27, 8, lsl 12", lit "ldr x16, [x16, 0x8f0]")])
  = [lit "Found 1 direct matches:";
     lit "add x16, x27, 8, lsl 12" ++ [newline]
       ++ lit "ldr x16, [x16, 0x8f0]" ++ [newline]]
  /\ snd (report []) = [lit "No matches found."].
Proof.
  split.
  - apply (report_shape
             [(lit "add x16, x27, 8, lsl 12", lit "ldr x16, [x16, 0x8f0]")]).
    discriminate.
  - apply (report_shape []). reflexivity.
Defined.

(** ** Witnesses for [run_command] and [main] *)

Lemma run_command_commands_witness :
  run_command nat Demo.r2_open Demo.r2_cmd Demo.r2_quit
    (lit "libapp.so") (lit "8") (lit "0x8f0")
  = (Return (split (Demo.window_text ++ Demo.window_text) newline),
     [R2Open (lit "libapp.so") r2_flags;
      R2Cmd (lit "/ad/ add.*, x27, 8, lsl 12; .*, [.*, 0x8f0]");
      R2Cmd (lit "s 0x003076fc;pd3");
      R2Cmd (lit "s 0x003095bc;pd3");
      R2Quit]).
Proof.
  apply (run_command_commands nat Demo.r2_open Demo.r2_cmd Demo.r2_quit
           (lit "libapp.so") (lit "8") (lit "0x8f0") Demo.hits
           0%nat 1%nat 3%nat [Demo.window_text; Demo.window_text]);
    reflexivity.
Defined.

Lemma run_command_lines_witness :
  1 <= len (split (Demo.window_text ++ Demo.window_text) newline)
  /\ Forall (fun line => mem_char newline line = false)
       (split (Demo.window_text ++ Demo.window_text) newline)
  /\ len (adjacent (split (Demo.window_text ++ Demo.window_text) newline))
     = len (split (Demo.window_text ++ Demo.window_text) newline) - 1.
Proof.
  apply (run_command_lines nat Demo.r2_open Demo.r2_cmd Demo.r2_quit
           (lit "libapp.so") (lit "8") (lit "0x8f0")).
  reflexivity.
Defined.


Lemma main_completes_witness :
  exists output asked,
    run_command nat Demo.r2_open Demo.r2_cmd Demo.r2_quit
      (lit "libapp.so") (first_target (lit "0x88f0"))
      (second_target (lit "0x88f0"))
    = (Return output, asked).
Proof.
  destruct (main_completes str Demo.contains Demo.re_compile
              nat Demo.r2_open Demo.r2_cmd Demo.r2_quit
              unit Demo.format_elapsed tt tt (lit "libapp.so") (lit "0x88f0")
              eq_refl)
    as [output [asked [_ [_ [E _]]]]].
  exists output, asked. exact E.
Defined.

Lemma main_no_hits_witness :
  main str Demo.contains Demo.re_compile
    nat Demo.r2_open Demo.r2_cmd_nothing Demo.r2_quit
    unit Demo.format_elapsed tt tt (lit "libapp.so") (lit "0x88f0")
  = (Return tt,
     [Print (lit "The First Target is: 8");
      Print (lit "The Second Target is: 0x8f0");
      Write progress;
      R2 (R2Open (lit "libapp.so") r2_flags);
      R2 (R2Cmd (lit "/ad/ add.*, x27, 8, lsl 12; .*, [.*, 0x8f0]"));
      R2 R2Quit;
      Compile (lit "add\s+(x\d+),\s+x27,\s+8,\s+lsl\s+12");
      Compile (lit "ldr\s+(x\d+),\s+\[(x\d+),\s+0x8f0]");
      Print (lit "No matches found.");
      Print (lit "Script execution time: 0.00 seconds")]).
Proof.
  apply (main_no_hits str Demo.contains Demo.re_compile
           nat Demo.r2_open Demo.r2_cmd_nothing Demo.r2_quit
           unit Demo.format_elapsed tt tt (lit "libapp.so") (lit "0x88f0")
           [newline] 0%nat 1%nat
           (lit "add\s+(x\d+),\s+x27,\s+8,\s+lsl\s+12")
           (lit "ldr\s+(x\d+),\s+\[(x\d+),\s+0x8f0]"));
    reflexivity.
Defined.

(** ** More on [import_library] *)

(** X11: the installer runs exactly when the first import raises
    [ImportError], once, for [package_name] or, without one, for the
    library's own name; in every other case [import_library] is the first
    import and nothing else happens. *)
Theorem import_library_pip (module : Type) (w : world module)
  (library_name : str) (package_name : option str) :
  let run := import_library module w library_name package_name in
  let name := match package_name with
              | None => library_name
              | Some p => p
              end in
  (import_before module w library_name = Raise ImportError ->
   exists rest,
     snd run = PipInvoked name :: rest
     /\ forall p, ~ In (PipInvoked p) rest)
  /\ (import_before module w library_name <> Raise ImportError ->
      run = (import_before module w library_name, [])).
Proof.
  cbv zeta. unfold import_library. split.
  - intros ->.
    destruct (pip_install module w
                match package_name with
                | Some p => p
                | None => library_name
                end) as [code|e]; simpl.
    + destruct (code =? 0) eqn:E0; simpl.
      * apply Z.eqb_eq in E0. subst code.
        destruct (import_after module w library_name); simpl;
          eexists; (split; [reflexivity|]);
          intros p [H|[]]; discriminate H.
      * eexists. split; [reflexivity|]. intros p [].
    + eexists. split; [reflexivity|]. intros p [].
  - intros Hne.
    destruct (import_before module w library_name) as [m|e].
    + reflexivity.
    + destruct e; try reflexivity. congruence.
Qed.

Lemma import_library_pip_witness :
  exists rest,
    snd (import_library unit Demo.fresh_machine (lit "r2pipe") None)
    = PipInvoked (lit "r2pipe") :: rest
    /\ forall p, ~ In (PipInvoked p) rest.
Proof.
  apply (import_library_pip unit Demo.fresh_machine (lit "r2pipe") None).
  reflexivity.
Defined.

(** X12: after an [ImportError], the result is decided by the installer: if
    it cannot start, its exception; if it exits with a non-zero code, a
    [CalledProcessError] with that code; if it exits with 0, whatever the
    second import gives, a second [ImportError] included. *)
Theorem import_library_after_install (module : Type) (w : world module)
  (library_name : str) (package_name : option str) :
  let name := match package_name with
              | None => library_name
              | Some p => p
              end in
  import_before module w library_name = Raise ImportError ->
  fst (import_library module w library_name package_name)
  = match pip_install module w name with
    | NotStarted e => Raise e
    | Exited code =>
        if code =? 0 then import_after module w library_name
        else Raise (CalledProcessError code)
    end.
Proof.
  cbv zeta. unfold import_library. intros ->.
  destruct (pip_install module w
              match package_name with
              | Some p => p
              | None => library_name
              end) as [code|e]; simpl; [|reflexivity].
  destruct (code =? 0) eqn:E0; simpl; [|reflexivity].
  apply Z.eqb_eq in E0. subst code.
  destruct (import_after module w library_name); reflexivity.
Qed.

Lemma import_library_after_install_witness :
  fst (import_library unit Demo.offline_machine (lit "r2pipe") None)
  = Raise (CalledProcessError 1).
Proof.
  apply (import_library_after_install unit Demo.offline_machine
           (lit "r2pipe") None).
  reflexivity.
Defined.

(** ** More on [search_patterns] *)

Section PatternMatcherMore.

Variable pattern : Type.
Variable search : pattern -> str -> bool.

Lemma adjacent_app (l1 l2 : list str) (a b : str) :
  adjacent ((l1 ++ [a]) ++ b :: l2)
  = adjacent (l1 ++ [a]) ++ (a, b) :: adjacent (b :: l2).
Proof.
  induction l1 as [|x l1 IH].
  - reflexivity.
  - destruct l1 as [|y l1].
    + reflexivity.
    + change (adjacent (((x :: y :: l1) ++ [a]) ++ b :: l2))
        with ((x, y) :: adjacent (((y :: l1) ++ [a]) ++ b :: l2)).
      rewrite IH. reflexivity.
Qed.

(** X13: searching a sequence made of two parts gives the matches of the
    first part, then the pair straddling the seam if it matches, then the
    matches of the second part: a match can join the last line of one
    window to the first line of the next. *)
Theorem search_patterns_app (l1 l2 : list str) (a b : str)
  (pattern1 pattern2 : pattern) :
  exists ms1 ms2,
    fst (search_patterns pattern search (l1 ++ [a]) pattern1 pattern2)
    = Return ms1
    /\ fst (search_patterns pattern search (b :: l2) pattern1 pattern2)
       = Return ms2
    /\ fst (search_patterns pattern search ((l1 ++ [a]) ++ b :: l2)
              pattern1 pattern2)
       = Return (ms1
                 ++ (if (search pattern1 a && search pattern2 b)%bool
                     then [(a, b)] else [])
                 ++ ms2).
Proof.
  rewrite !search_patterns_eq. cbn [fst].
  eexists. eexists. split; [reflexivity|]. split; [reflexivity|].
  rewrite adjacent_app, filter_app. cbn [filter].
  unfold both_match at 2. cbn [fst snd].
  destruct (search pattern1 a && search pattern2 b)%bool; reflexivity.
Qed.

Lemma adjacent_firsts (output : list str) :
  map fst (adjacent output) = removelast output.
Proof.
  induction output as [|x [|y l] IH]; try reflexivity.
  rewrite adjacent_cons. cbn [map fst]. rewrite IH. reflexivity.
Qed.

Lemma calls_length (pattern1 pattern2 : pattern) (pairs : list (str * str)) :
  List.length (flat_map (calls_of pattern search pattern1 pattern2) pairs)
  = (List.length pairs
     + List.length (filter (search pattern1) (map fst pairs)))%nat.
Proof.
  induction pairs as [|[a b] pairs IH]; [reflexivity|].
  cbn [flat_map map filter fst]. rewrite length_app, IH.
  unfold calls_of. cbn [fst snd].
  destruct (search pattern1 a); simpl; lia.
Qed.

(** X14: the engine is called once for pattern 1 on every line but the
    last, and once more, for pattern 2, after each of those lines that
    pattern 1 matched: between L-1 and 2(L-1) calls on L >= 1 lines. *)
Theorem search_patterns_calls (output : list str)
  (pattern1 pattern2 : pattern) :
  let calls := snd (search_patterns pattern search output pattern1 pattern2) in
  let tested := Z.max 0 (len output - 1) in
  len calls = tested + len (filter (search pattern1) (removelast output))
  /\ tested <= len calls <= 2 * tested.
Proof.
  cbv zeta. rewrite search_patterns_eq. cbn [snd].
  assert (E : len (flat_map (calls_of pattern search pattern1 pattern2)
                     (adjacent output))
              = Z.max 0 (len output - 1)
                + len (filter (search pattern1) (removelast output))).
  { unfold len. rewrite calls_length, adjacent_firsts, adjacent_length.
    lia. }
  split; [exact E|]. rewrite E.
  pose proof (filter_length_le (search pattern1) (removelast output)) as Hf.
  assert (Hr : List.length (removelast output)
               = (List.length output - 1)%nat).
  { rewrite <- adjacent_firsts, length_map. apply adjacent_length. }
  unfold len in *. lia.
Qed.

End PatternMatcherMore.

(** ** How the shift operand is written *)






